(** * Upload eligibility of database connections

    A model of [UploadToDatabaseForm] in [superset/views/database/forms.py]:
    the three functions [file_allowed_dbs], [at_least_one_schema_is_allowed]
    and [is_engine_allowed_to_file_upl], which decide the databases offered
    in the selection control of the CSV, Excel and columnar upload forms.

    The functions read two globals, [db.session] and [security_manager].
    Both live in a [World] that every effectful function receives and
    returns. That first model takes the answers of the two collaborators
    as values. [Traced] records the calls made to them, and [Effects]
    assumes nothing of them: there a call may change the state and may
    raise. *)

From Stdlib Require Import List Bool Ascii String ZArith.
From stdpp Require Import base list.
Import ListNotations.

Local Open Scope Z_scope.

(** ** Python truth-value testing

    [if x:] and [x and y] test the truth value of [x]: [None], [False] and
    an empty list are false, [True] and a list with an element are true.
    Testing never raises for these values. *)

Class Truthy (A : Type) := truthy : A -> bool.

#[export] Instance bool_truthy : Truthy bool := fun b => b.

#[export] Instance list_truthy {A : Type} : Truthy (list A) :=
  fun l => match l with [] => false | _ :: _ => true end.

(** [None] is Python's [None]; [Some v] is the value [v]. *)
#[export] Instance option_truthy {A : Type} `{Truthy A} : Truthy (option A) :=
  fun o => match o with None => false | Some v => truthy v end.

(** ** Data model *)

(** [database.db_engine_spec]: the engine class of a connection. Of its
    attributes only [supports_file_upload] is read here. *)
Record BaseEngineSpec := mkEngineSpec {
  engine : string;
  supports_file_upload : bool
}.

(** A row of [superset.models.core.Database]. *)
Record Database := mkDatabase {
  id : Z;
  database_name : string;
  allow_file_upload : bool;
  db_engine_spec : BaseEngineSpec;
  schemas_allowed_for_file_upload : option (list string)
}.

(** Modelled from the spec: the body of
    [Database.get_schema_access_for_file_upload] is not part of this file.
    The spec gives a connection "an optional set of schema names to which
    upload is restricted"; the method returns it, [None] when it is absent. *)
Definition get_schema_access_for_file_upload (database : Database)
  : option (list string) :=
  schemas_allowed_for_file_upload database.

(** [security_manager], for the user of the current request. Its two
    methods are external; a response is a Python value, possibly [None]. *)
Record SecurityManager := mkSecurityManager {
  sm_can_access_database : Database -> option bool;
  sm_get_schemas_accessible_by_user :
    Database -> option (list string) -> bool -> option (list string)
}.

(** The globals the module reads: the rows of the [Database] table, in the
    order a query returns them, and the security manager. *)
Record World := mkWorld {
  session_rows : list Database;
  security_manager : SecurityManager
}.

(** ** Effects: a state monad over [World] *)

Definition M (A : Type) : Type := World -> A * World.

Definition ret {A : Type} (a : A) : M A := fun w => (a, w).

Definition bind {A B : Type} (m : M A) (k : A -> M B) : M B :=
  fun w => let (a, w') := m w in k a w'.

Notation "'let*' x ':=' m 'in' k" := (bind m (fun x => k))
  (at level 10, x name, m at level 100, k at level 200).

(** [db.session.query(Database).filter_by(allow_file_upload=True).all()] *)
Definition query_filter_by_allow_file_upload : M (list Database) :=
  fun w => (List.filter allow_file_upload (session_rows w), w).

(** [security_manager.can_access_database(database)] *)
Definition can_access_database (database : Database) : M (option bool) :=
  fun w => (sm_can_access_database (security_manager w) database, w).

(** [security_manager.get_schemas_accessible_by_user(database, schemas,
    hierarchical)] *)
Definition get_schemas_accessible_by_user (database : Database)
    (schemas : option (list string)) (hierarchical : bool)
  : M (option (list string)) :=
  fun w => (sm_get_schemas_accessible_by_user (security_manager w)
              database schemas hierarchical, w).

(** [[x for x in l if cond(x)]]: the condition is evaluated on the elements
    from left to right, and an element is kept when it holds. *)
Fixpoint comprehension {A : Type} (cond : A -> M bool) (l : list A)
  : M (list A) :=
  match l with
  | [] => ret []
  | x :: xs =>
      let* keep := cond x in
      let* rest := comprehension cond xs in
      ret (if keep then x :: rest else rest)
  end.

(** ** [UploadToDatabaseForm] *)

Definition at_least_one_schema_is_allowed (database : Database) : M bool :=
  let* access := can_access_database database in
  if truthy access then ret true
  else
    let schemas := get_schema_access_for_file_upload database in
    if truthy schemas then
      let* accessible := get_schemas_accessible_by_user database schemas false in
      if truthy accessible then ret true else ret false
    else ret false.

Definition is_engine_allowed_to_file_upl (database : Database) : bool :=
  if truthy (supports_file_upload (db_engine_spec database)) then true
  else false.

Definition file_allowed_dbs : M (list Database) :=
  let* file_enabled_dbs := query_filter_by_allow_file_upload in
  comprehension
    (fun file_enabled_db =>
       let* allowed := at_least_one_schema_is_allowed file_enabled_db in
       if allowed then ret (is_engine_allowed_to_file_upl file_enabled_db)
       else ret false)
    file_enabled_dbs.

(** ** What the functions compute

    The value of each function as a boolean expression over the world it
    runs in. The run lemmas below connect the monadic code to them. *)

Definition accessible_schemas (w : World) (d : Database)
  : option (list string) :=
  sm_get_schemas_accessible_by_user (security_manager w) d
    (get_schema_access_for_file_upload d) false.

Definition has_upload_access (w : World) (d : Database) : bool :=
  truthy (sm_can_access_database (security_manager w) d)
  || (truthy (get_schema_access_for_file_upload d)
      && truthy (accessible_schemas w d)).

Definition eligible (w : World) (d : Database) : bool :=
  has_upload_access w d && is_engine_allowed_to_file_upl d.

(** The list the comprehension of [file_allowed_dbs] iterates over. *)
Definition file_enabled_dbs (w : World) : list Database :=
  fst (query_filter_by_allow_file_upload w).

(** ** Vocabulary of the specification *)

(** The user has full access to the connection. *)
Definition full_access (w : World) (d : Database) : Prop :=
  sm_can_access_database (security_manager w) d = Some true.

(** A schema set that is present and has an element. *)
Definition nonempty (v : option (list string)) : Prop :=
  exists s l, v = Some (s :: l).

(** The user may upload to the connection: full access, or access to one
    of the schemas the connection declares for upload. *)
Definition upload_access (w : World) (d : Database) : Prop :=
  full_access w d
  \/ (nonempty (get_schema_access_for_file_upload d)
      /\ nonempty (accessible_schemas w d)).

(** ** The [database] field of the three forms

    [QuerySelectField(query_factory=UploadToDatabaseForm.file_allowed_dbs,
    get_pk=lambda a: a.id, ...)]: the key of an option of the control. *)

Definition get_pk (a : Database) : Z := id a.

(** ** The calls the module makes

    The same functions once more, now recording every call to an external
    collaborator, with its arguments, in the order the calls are made. The
    collaborators only read the world, so the world is not threaded. *)

Inductive Call : Type :=
| Query_filter_by_allow_file_upload
| Can_access_database (database : Database)
| Get_schemas_accessible_by_user
    (database : Database) (schemas : option (list string))
    (hierarchical : bool).

Module Traced.

Definition T (A : Type) : Type := World -> A * list Call.

Definition ret {A : Type} (a : A) : T A := fun _ => (a, []).

Definition bind {A B : Type} (m : T A) (k : A -> T B) : T B :=
  fun w =>
    let (a, calls) := m w in
    let (b, calls') := k a w in
    (b, calls ++ calls').

Notation "'let+' x ':=' m 'in' k" := (bind m (fun x => k))
  (at level 10, x name, m at level 100, k at level 200).

Definition query_filter_by_allow_file_upload : T (list Database) :=
  fun w => (List.filter allow_file_upload (session_rows w),
            [Query_filter_by_allow_file_upload]).

Definition can_access_database (database : Database) : T (option bool) :=
  fun w => (sm_can_access_database (security_manager w) database,
            [Can_access_database database]).

Definition get_schemas_accessible_by_user (database : Database)
    (schemas : option (list string)) (hierarchical : bool)
  : T (option (list string)) :=
  fun w => (sm_get_schemas_accessible_by_user (security_manager w)
              database schemas hierarchical,
            [Get_schemas_accessible_by_user database schemas hierarchical]).

Fixpoint comprehension {A : Type} (cond : A -> T bool) (l : list A)
  : T (list A) :=
  match l with
  | [] => ret []
  | x :: xs =>
      let+ keep := cond x in
      let+ rest := comprehension cond xs in
      ret (if keep then x :: rest else rest)
  end.

Definition at_least_one_schema_is_allowed (database : Database) : T bool :=
  let+ access := can_access_database database in
  if truthy access then ret true
  else
    let schemas := get_schema_access_for_file_upload database in
    if truthy schemas then
      let+ accessible := get_schemas_accessible_by_user database schemas false in
      if truthy accessible then ret true else ret false
    else ret false.

Definition file_allowed_dbs : T (list Database) :=
  let+ file_enabled_dbs := query_filter_by_allow_file_upload in
  comprehension
    (fun file_enabled_db =>
       let+ allowed := at_least_one_schema_is_allowed file_enabled_db in
       if allowed then ret (is_engine_allowed_to_file_upl file_enabled_db)
       else ret false)
    file_enabled_dbs.

End Traced.

(** The calls [at_least_one_schema_is_allowed] makes for a database. *)
Definition oracle_calls (w : World) (d : Database) : list Call :=
  Can_access_database d
  :: (if truthy (sm_can_access_database (security_manager w) d) then []
      else if truthy (get_schema_access_for_file_upload d)
           then [Get_schemas_accessible_by_user d
                   (get_schema_access_for_file_upload d) false]
           else []).

(** The databases of the [can_access_database] calls of a trace, in order. *)
Definition can_access_database_calls (calls : list Call) : list Database :=
  List.flat_map
    (fun c => match c with Can_access_database d => [d] | _ => [] end)
    calls.

(** ** The table-name validator

    [Regexp(r"^[^\.]+$", message=_("Table name cannot contain a schema"))],
    on [table_name] of the CSV form and [name] of the Excel and columnar
    forms. *)

(** The part of Python's [re] the pattern is written in: [^], [$], a
    character set [[...]] or [[^...]], and [+] on a set. *)
Module Re.

Inductive charset : Type :=
| Any_of (cs : list ascii)
| None_of (cs : list ascii).

Inductive node : Type :=
| Caret
| Dollar
| One (c : charset)
| Plus (c : charset).

Definition member (c : charset) (a : ascii) : bool :=
  match c with
  | Any_of cs => existsb (Ascii.eqb a) cs
  | None_of cs => negb (existsb (Ascii.eqb a) cs)
  end.

(** [$] without [re.MULTILINE]: at the end of the string, or just before
    a newline that ends the string. *)
Definition at_end (s : string) : bool :=
  match s with
  | EmptyString => true
  | String a EmptyString => Ascii.eqb a "010"%char
  | String _ (String _ _) => false
  end.

(** Whether the nodes [p] match a prefix of [s]; [at_start] tells whether
    [s] is the whole subject. [Plus] takes one character or more and hands
    every split to the nodes that follow. *)
Fixpoint match_here (p : list node) (at_start : bool) (s : string) : bool :=
  match p with
  | [] => true
  | Caret :: p' => at_start && match_here p' at_start s
  | Dollar :: p' => at_end s && match_here p' at_start s
  | One c :: p' =>
      match s with
      | EmptyString => false
      | String a s' => member c a && match_here p' false s'
      end
  | Plus c :: p' =>
      (fix plus (s : string) : bool :=
         match s with
         | EmptyString => false
         | String a s' => member c a && (plus s' || match_here p' false s')
         end) s
  end.

(** [regex.match(s)] is a match object, not [None]. *)
Definition matches (regex : list node) (s : string) : bool :=
  match_here regex true s.

End Re.

(** [r"^[^\.]+$"] *)
Definition table_name_regex : list Re.node :=
  [Re.Caret; Re.Plus (Re.None_of ["."%char]); Re.Dollar].

(** The validator [Regexp(regex)] on a field whose [data] is a string or
    [None]: it passes when [regex.match(field.data or "")] matches, and
    raises [ValidationError] otherwise. *)
Definition Regexp (regex : list Re.node) (data : option string) : bool :=
  Re.matches regex (match data with Some s => s | None => EmptyString end).

(** ** Collaborators that may write and raise

    The same functions a third time, over collaborators about which nothing
    is assumed: the state is any type, a call may change it, and a call may
    raise instead of returning. The functions contain no [try], so an
    exception leaves each of them at the call that raised it. *)

Module Effects.

(** How a call ends: it returns a value, or raises an exception. *)
Inductive Outcome (A : Type) : Type :=
| Returned (a : A)
| Raised (e : string).

Arguments Returned {A} a.
Arguments Raised {A} e.

Definition Eff (State A : Type) : Type := State -> Outcome A * State.

Definition ret {State A : Type} (a : A) : Eff State A :=
  fun s => (Returned a, s).

Definition bind {State A B : Type} (m : Eff State A) (k : A -> Eff State B)
  : Eff State B :=
  fun s =>
    match m s with
    | (Returned a, s') => k a s'
    | (Raised e, s') => (Raised e, s')
    end.

Notation "'let!' x ':=' m 'in' k" := (bind m (fun x => k))
  (at level 10, x name, m at level 100, k at level 200).

(** [db.session.query(Database).filter_by(allow_file_upload=True).all()]
    and the two methods of [security_manager] that the module calls. *)
Record Collaborators (State : Type) : Type := mkCollaborators {
  query_filter_by_allow_file_upload : Eff State (list Database);
  can_access_database : Database -> Eff State (option bool);
  get_schemas_accessible_by_user :
    Database -> option (list string) -> bool
    -> Eff State (option (list string))
}.

Arguments mkCollaborators {State} _ _ _.
Arguments query_filter_by_allow_file_upload {State} _ _.
Arguments can_access_database {State} _ _ _.
Arguments get_schemas_accessible_by_user {State} _ _ _ _ _.

Fixpoint comprehension {State A : Type} (cond : A -> Eff State bool)
    (l : list A) : Eff State (list A) :=
  match l with
  | [] => ret []
  | x :: xs =>
      let! keep := cond x in
      let! rest := comprehension cond xs in
      ret (if keep then x :: rest else rest)
  end.

Definition at_least_one_schema_is_allowed {State : Type}
    (c : Collaborators State) (database : Database) : Eff State bool :=
  let! access := can_access_database c database in
  if truthy access then ret true
  else
    let schemas := get_schema_access_for_file_upload database in
    if truthy schemas then
      let! accessible := get_schemas_accessible_by_user c database schemas false in
      if truthy accessible then ret true else ret false
    else ret false.

Definition file_allowed_dbs {State : Type} (c : Collaborators State)
  : Eff State (list Database) :=
  let! file_enabled_dbs := query_filter_by_allow_file_upload c in
  comprehension
    (fun file_enabled_db =>
       let! allowed := at_least_one_schema_is_allowed c file_enabled_db in
       if allowed then ret (is_engine_allowed_to_file_upl file_enabled_db)
       else ret false)
    file_enabled_dbs.

(** *** Vocabulary *)

(** A call that leaves the state as it found it, however it ends. *)
Definition read_only {State A : Type} (m : Eff State A) : Prop :=
  forall s, snd (m s) = s.

(** The collaborators only read: the spec's "read-only query by
    upload-allowed flag" and "two read-only predicate queries". *)
Definition read_only_collaborators {State : Type} (c : Collaborators State)
  : Prop :=
  read_only (query_filter_by_allow_file_upload c)
  /\ (forall d, read_only (can_access_database c d))
  /\ (forall d schemas h,
        read_only (get_schemas_accessible_by_user c d schemas h)).



(** *** What the functions compute when the collaborators only read *)

Definition allowed_outcome {State : Type} (c : Collaborators State)
    (s : State) (d : Database) : Outcome bool :=
  match fst (can_access_database c d s) with
  | Raised e => Raised e
  | Returned access =>
      if truthy access then Returned true
      else if truthy (get_schema_access_for_file_upload d) then
        match fst (get_schemas_accessible_by_user c d
                     (get_schema_access_for_file_upload d) false s) with
        | Raised e => Raised e
        | Returned accessible => Returned (truthy accessible)
        end
      else Returned false
  end.

Definition kept_outcome {State : Type} (c : Collaborators State)
    (s : State) (d : Database) : Outcome bool :=
  match allowed_outcome c s d with
  | Raised e => Raised e
  | Returned allowed => Returned (allowed && is_engine_allowed_to_file_upl d)
  end.

Fixpoint filter_outcome {A : Type} (p : A -> Outcome bool) (l : list A)
  : Outcome (list A) :=
  match l with
  | [] => Returned []
  | x :: xs =>
      match p x with
      | Raised e => Raised e
      | Returned keep =>
          match filter_outcome p xs with
          | Raised e => Raised e
          | Returned rest => Returned (if keep then x :: rest else rest)
          end
      end
  end.

Definition result_outcome {State : Type} (c : Collaborators State)
    (s : State) : Outcome (list Database) :=
  match fst (query_filter_by_allow_file_upload c s) with
  | Raised e => Raised e
  | Returned l => filter_outcome (kept_outcome c s) l
  end.

End Effects.

(** A computation of the first model as one that returns and never raises. *)
Definition lift {A : Type} (m : M A) : Effects.Eff World A :=
  fun w => let (a, w') := m w in (Effects.Returned a, w').

(** The collaborators of the first model: they read the world, and answer. *)
Definition of_world : Effects.Collaborators World :=
  Effects.mkCollaborators
    (lift query_filter_by_allow_file_upload)
    (fun d => lift (can_access_database d))
    (fun d schemas h => lift (get_schemas_accessible_by_user d schemas h)).

(** ** Sample worlds *)

Module Sample.
Local Open Scope string_scope.

Definition postgres : BaseEngineSpec := mkEngineSpec "postgresql" true.
Definition gsheets : BaseEngineSpec := mkEngineSpec "gsheets" false.

(** The three connections of the spec's example. *)
Definition A : Database := mkDatabase 1 "A" true postgres (Some []).
Definition B : Database := mkDatabase 2 "B" true gsheets (Some []).
Definition C : Database := mkDatabase 3 "C" true postgres (Some ["sales"]).

(** Further connections, one per case of the filter. *)
Definition legacy_sheets : Database :=
  mkDatabase 4 "legacy_sheets" true gsheets None.
Definition archive : Database :=
  mkDatabase 5 "archive" false postgres None.
Definition hr : Database :=
  mkDatabase 6 "hr" true postgres (Some ["hr"; "payroll"]).
Definition ops : Database :=
  mkDatabase 7 "ops" true postgres (Some ["ops"]).
Definition scratch : Database :=
  mkDatabase 8 "scratch" true postgres None.

(** Full access to [A], [legacy_sheets] and [archive]; schema access to
    ["sales"] on [C]; no answer at all for [ops]. *)
Definition manager : SecurityManager :=
  mkSecurityManager
    (fun d =>
       if Z.eqb (id d) 1 || Z.eqb (id d) 4 || Z.eqb (id d) 5 then Some true
       else if Z.eqb (id d) 7 then None
       else Some false)
    (fun d schemas _ =>
       if Z.eqb (id d) 3 then Some ["sales"]
       else if Z.eqb (id d) 6 then Some []
       else None).


Definition rows : list Database :=
  [A; B; C; legacy_sheets; archive; hr; ops; scratch].

Definition spec_world : World := mkWorld [A; B; C] manager.
Definition world : World := mkWorld rows manager.
(** An administrator: full access to every connection. *)
Definition admin : SecurityManager :=
  mkSecurityManager (fun _ => Some true) (fun _ _ _ => None).

(** A security manager that answers nothing. *)
Definition nobody : SecurityManager :=
  mkSecurityManager (fun _ => None) (fun _ _ _ => None).

Definition admin_world : World := mkWorld rows admin.
Definition nobody_world : World := mkWorld rows nobody.

(** Collaborators that count the calls made to them in the state: they
    answer as [manager] over [rows], and each call adds one. *)
Definition counting : Effects.Collaborators nat :=
  Effects.mkCollaborators
    (fun n => (Effects.Returned (List.filter allow_file_upload rows), S n))
    (fun d n => (Effects.Returned (sm_can_access_database manager d), S n))
    (fun d schemas h n =>
       (Effects.Returned
          (sm_get_schemas_accessible_by_user manager d schemas h), S n)).
End Sample.

(** ** Truth values *)

Lemma truthy_access_true (v : option bool) :
  truthy v = true <-> v = Some true.
Proof.
  destruct v as [[|]|]; cbn; split; intros E; try reflexivity;
    discriminate E.
Qed.

Lemma truthy_schemas_true (v : option (list string)) :
  truthy v = true <-> nonempty v.
Proof.
  unfold nonempty. destruct v as [[|s l]|]; cbn; split.
  all: try (intros E; discriminate E).
  all: try (intros (s' & l' & E); discriminate E).
  - intros _. exists s, l. reflexivity.
  - intros _. reflexivity.
Qed.

Lemma truthy_schemas_false (v : option (list string)) :
  truthy v = false <-> ~ nonempty v.
Proof.
  rewrite <- truthy_schemas_true. destruct (truthy v); split; intros E.
  all: try reflexivity; try discriminate E.
  - exfalso. apply E. reflexivity.
  - intros E'. discriminate E'.
Qed.

Lemma is_engine_allowed_to_file_upl_flag (d : Database) :
  is_engine_allowed_to_file_upl d = supports_file_upload (db_engine_spec d).
Proof.
  unfold is_engine_allowed_to_file_upl.
  destruct (supports_file_upload (db_engine_spec d)); reflexivity.
Qed.

(** ** Running the code *)

Lemma at_least_one_schema_is_allowed_run (d : Database) (w : World) :
  at_least_one_schema_is_allowed d w = (has_upload_access w d, w).
Proof.
  unfold at_least_one_schema_is_allowed, has_upload_access, accessible_schemas,
    bind, can_access_database, get_schemas_accessible_by_user, ret.
  destruct (truthy (sm_can_access_database (security_manager w) d));
    [reflexivity|].
  destruct (truthy (get_schema_access_for_file_upload d)); [|reflexivity].
  destruct (truthy (sm_get_schemas_accessible_by_user _ _ _ _)); reflexivity.
Qed.

Lemma comprehension_run {A : Type} (cond : A -> M bool) (p : A -> bool)
    (w : World) (l : list A) :
  (forall x, cond x w = (p x, w)) ->
  comprehension cond l w = (List.filter p l, w).
Proof.
  intros Hcond. induction l as [|x xs IH]; [reflexivity|].
  cbn [comprehension List.filter]. unfold bind.
  rewrite Hcond, IH. unfold ret. destruct (p x); reflexivity.
Qed.

Lemma file_allowed_dbs_run (w : World) :
  file_allowed_dbs w = (List.filter (eligible w) (file_enabled_dbs w), w).
Proof.
  unfold file_allowed_dbs, bind, file_enabled_dbs.
  cbn [query_filter_by_allow_file_upload fst].
  apply comprehension_run. intros d. unfold bind.
  rewrite at_least_one_schema_is_allowed_run. unfold eligible, ret.
  destruct (has_upload_access w d); reflexivity.
Qed.

Lemma filter_sublist {A : Type} (p : A -> bool) (l : list A) :
  List.filter p l `sublist_of` l.
Proof.
  induction l as [|x xs IH]; cbn; [constructor|].
  destruct (p x); constructor; exact IH.
Qed.

Lemma has_upload_access_iff (w : World) (d : Database) :
  has_upload_access w d = true <->
  full_access w d \/
  (nonempty (get_schema_access_for_file_upload d)
   /\ nonempty (accessible_schemas w d)).
Proof.
  unfold has_upload_access, full_access.
  rewrite orb_true_iff, andb_true_iff, truthy_access_true,
    !truthy_schemas_true. reflexivity.
Qed.

Lemma In_file_allowed_dbs (w : World) (d : Database) :
  In d (fst (file_allowed_dbs w)) <->
  In d (session_rows w) /\ allow_file_upload d = true /\ eligible w d = true.
Proof.
  rewrite file_allowed_dbs_run. cbn [fst]. unfold file_enabled_dbs.
  cbn [query_filter_by_allow_file_upload fst].
  rewrite !List.filter_In. tauto.
Qed.

(** Closing goals about the sample worlds. *)
Ltac in_rows := cbn; repeat (first [left; reflexivity | right]).
Ltac absurd_nonempty :=
  let s := fresh "s" in let l := fresh "l" in let E := fresh "E" in
  intros (s & l & E); vm_compute in E; discriminate E.
Ltac absurd_eq := let E := fresh "E" in intros E; vm_compute in E; discriminate E.
Ltac is_nonempty := eexists; eexists; vm_compute; reflexivity.

(** ** The filter *)

(** The spec's example: three connections, full access to [A] only and
    access to schema ["sales"] on [C]. *)
Example file_allowed_dbs_spec_example :
  fst (file_allowed_dbs Sample.spec_world) = [Sample.A; Sample.C].
Proof. reflexivity. Qed.

Example file_allowed_dbs_sample :
  fst (file_allowed_dbs Sample.world) = [Sample.A; Sample.C].
Proof. reflexivity. Qed.

(** C1. Among the connections the comprehension iterates over (the rows the
    query for [allow_file_upload=True] returns), [file_allowed_dbs] keeps a
    connection exactly when the user can access the database, or the
    connection declares a non-empty set of upload schemas of which the user
    can access a non-empty part, and moreover the engine of the connection
    supports file upload. *)
Theorem file_allowed_dbs_includes_iff (w : World) (d : Database) :
  In d (fst (file_allowed_dbs w)) <->
  In d (file_enabled_dbs w)
  /\ ((full_access w d
       \/ (nonempty (get_schema_access_for_file_upload d)
           /\ nonempty (accessible_schemas w d)))
      /\ supports_file_upload (db_engine_spec d) = true).
Proof.
  rewrite file_allowed_dbs_run. cbn [fst]. rewrite List.filter_In.
  unfold eligible.
  rewrite andb_true_iff, has_upload_access_iff,
    is_engine_allowed_to_file_upl_flag.
  reflexivity.
Qed.

(** C2. A connection whose [allow_file_upload] is false is never in the
    result of [file_allowed_dbs], whatever the user may access and whatever
    its other attributes are. *)
Theorem file_allowed_dbs_excludes_disallowed (w : World) (d : Database) :
  allow_file_upload d = false -> ~ In d (fst (file_allowed_dbs w)).
Proof.
  intros Hflag Hin. apply In_file_allowed_dbs in Hin.
  destruct Hin as (_ & Hallow & _). congruence.
Qed.

Lemma file_allowed_dbs_excludes_disallowed_witness :
  allow_file_upload Sample.archive = false
  /\ full_access Sample.world Sample.archive
  /\ ~ In Sample.archive (fst (file_allowed_dbs Sample.world)).
Proof.
  split; [reflexivity|]. split; [reflexivity|].
  apply (file_allowed_dbs_excludes_disallowed Sample.world Sample.archive).
  reflexivity.
Defined.

(** C3. A connection whose engine does not support file upload
    ([db_engine_spec.supports_file_upload] false) is never in the result of
    [file_allowed_dbs], also when the user has full access to it and its
    [allow_file_upload] is true. *)
Theorem file_allowed_dbs_excludes_unsupported_engine
    (w : World) (d : Database) :
  supports_file_upload (db_engine_spec d) = false ->
  ~ In d (fst (file_allowed_dbs w)).
Proof.
  intros Hcap Hin. apply In_file_allowed_dbs in Hin.
  destruct Hin as (_ & _ & Hel). unfold eligible in Hel.
  apply andb_true_iff in Hel. destruct Hel as [_ Heng].
  rewrite is_engine_allowed_to_file_upl_flag in Heng. congruence.
Qed.

Lemma file_allowed_dbs_excludes_unsupported_engine_witness :
  supports_file_upload (db_engine_spec Sample.legacy_sheets) = false
  /\ full_access Sample.world Sample.legacy_sheets
  /\ allow_file_upload Sample.legacy_sheets = true
  /\ ~ In Sample.legacy_sheets (fst (file_allowed_dbs Sample.world)).
Proof.
  split; [reflexivity|]. split; [reflexivity|]. split; [reflexivity|].
  apply (file_allowed_dbs_excludes_unsupported_engine
           Sample.world Sample.legacy_sheets).
  reflexivity.
Defined.

(** C4. For a configured connection to which the user has full access and
    which declares no upload schemas, the connection is in the result of
    [file_allowed_dbs] exactly when its [allow_file_upload] flag and the
    [supports_file_upload] flag of its engine are both true. *)
Theorem file_allowed_dbs_full_access_iff (w : World) (d : Database) :
  In d (session_rows w) ->
  full_access w d ->
  ~ nonempty (get_schema_access_for_file_upload d) ->
  (In d (fst (file_allowed_dbs w)) <->
   allow_file_upload d = true
   /\ supports_file_upload (db_engine_spec d) = true).
Proof.
  intros Hrow Hfull _. rewrite In_file_allowed_dbs. unfold eligible.
  rewrite andb_true_iff, has_upload_access_iff,
    is_engine_allowed_to_file_upl_flag.
  tauto.
Qed.

Lemma file_allowed_dbs_full_access_iff_witness :
  In Sample.A (session_rows Sample.world)
  /\ full_access Sample.world Sample.A
  /\ ~ nonempty (get_schema_access_for_file_upload Sample.A)
  /\ (In Sample.A (fst (file_allowed_dbs Sample.world)) <->
      allow_file_upload Sample.A = true
      /\ supports_file_upload (db_engine_spec Sample.A) = true).
Proof.
  assert (Hrow : In Sample.A (session_rows Sample.world)) by in_rows.
  assert (Hfull : full_access Sample.world Sample.A) by reflexivity.
  assert (Hnone : ~ nonempty (get_schema_access_for_file_upload Sample.A))
    by absurd_nonempty.
  split; [exact Hrow|]. split; [exact Hfull|]. split; [exact Hnone|].
  exact (file_allowed_dbs_full_access_iff Sample.world Sample.A
           Hrow Hfull Hnone).
Defined.

(** C5. A configured connection to which the user lacks full access, which
    declares a non-empty set of upload schemas of which the user can access
    at least one, is in the result of [file_allowed_dbs], provided its
    [allow_file_upload] flag and the [supports_file_upload] flag of its
    engine are both true. *)
Theorem file_allowed_dbs_includes_schema_access (w : World) (d : Database) :
  In d (session_rows w) ->
  ~ full_access w d ->
  nonempty (get_schema_access_for_file_upload d) ->
  nonempty (accessible_schemas w d) ->
  allow_file_upload d = true ->
  supports_file_upload (db_engine_spec d) = true ->
  In d (fst (file_allowed_dbs w)).
Proof.
  intros Hrow _ Hdecl Hacc Hallow Hcap. apply In_file_allowed_dbs.
  split; [exact Hrow|]. split; [exact Hallow|]. unfold eligible.
  rewrite andb_true_iff, has_upload_access_iff,
    is_engine_allowed_to_file_upl_flag.
  split; [right; split; assumption | exact Hcap].
Qed.

Lemma file_allowed_dbs_includes_schema_access_witness :
  ~ full_access Sample.world Sample.C
  /\ nonempty (get_schema_access_for_file_upload Sample.C)
  /\ nonempty (accessible_schemas Sample.world Sample.C)
  /\ In Sample.C (fst (file_allowed_dbs Sample.world)).
Proof.
  assert (Hlack : ~ full_access Sample.world Sample.C) by absurd_eq.
  assert (Hdecl : nonempty (get_schema_access_for_file_upload Sample.C))
    by is_nonempty.
  assert (Hacc : nonempty (accessible_schemas Sample.world Sample.C))
    by is_nonempty.
  split; [exact Hlack|]. split; [exact Hdecl|]. split; [exact Hacc|].
  apply (file_allowed_dbs_includes_schema_access Sample.world Sample.C);
    [in_rows | exact Hlack | exact Hdecl | exact Hacc
     | reflexivity | reflexivity].
Defined.

(** C6. A connection to which the user lacks full access and which declares
    no upload schemas (the set is empty or absent) is not in the result of
    [file_allowed_dbs], whatever its flags are. *)
Theorem file_allowed_dbs_excludes_no_access (w : World) (d : Database) :
  ~ full_access w d ->
  ~ nonempty (get_schema_access_for_file_upload d) ->
  ~ In d (fst (file_allowed_dbs w)).
Proof.
  intros Hlack Hnone Hin. apply In_file_allowed_dbs in Hin.
  destruct Hin as (_ & _ & Hel). unfold eligible in Hel.
  apply andb_true_iff in Hel. destruct Hel as [Hacc _].
  apply has_upload_access_iff in Hacc. tauto.
Qed.

Lemma file_allowed_dbs_excludes_no_access_witness :
  (~ full_access Sample.world Sample.scratch
   /\ get_schema_access_for_file_upload Sample.scratch = None
   /\ ~ In Sample.scratch (fst (file_allowed_dbs Sample.world)))
  /\ (~ full_access Sample.world Sample.B
      /\ get_schema_access_for_file_upload Sample.B = Some []
      /\ ~ In Sample.B (fst (file_allowed_dbs Sample.world))).
Proof.
  split.
  - split; [absurd_eq|]. split; [reflexivity|].
    apply (file_allowed_dbs_excludes_no_access Sample.world Sample.scratch);
      [absurd_eq | absurd_nonempty].
  - split; [absurd_eq|]. split; [reflexivity|].
    apply (file_allowed_dbs_excludes_no_access Sample.world Sample.B);
      [absurd_eq | absurd_nonempty].
Defined.

(** C7. The result of [file_allowed_dbs] is a stable filter of its input:
    it is the input with the connections that fail the test removed, hence
    a subsequence of the rows the query returned, and of the table, in
    their order. *)
Theorem file_allowed_dbs_stable_filter (w : World) :
  fst (file_allowed_dbs w) = List.filter (eligible w) (file_enabled_dbs w)
  /\ fst (file_allowed_dbs w) `sublist_of` file_enabled_dbs w
  /\ fst (file_allowed_dbs w) `sublist_of` session_rows w.
Proof.
  rewrite file_allowed_dbs_run. cbn [fst].
  split; [reflexivity|]. split; [apply filter_sublist|].
  transitivity (file_enabled_dbs w); apply filter_sublist.
Qed.

(** C10. A connection to which the user lacks full access and which declares
    a non-empty set of upload schemas, none of which the user can access, is
    not in the result of [file_allowed_dbs], also when its
    [allow_file_upload] flag and the [supports_file_upload] flag of its
    engine are both true. *)
Theorem file_allowed_dbs_excludes_no_schema_access
    (w : World) (d : Database) :
  ~ full_access w d ->
  nonempty (get_schema_access_for_file_upload d) ->
  ~ nonempty (accessible_schemas w d) ->
  ~ In d (fst (file_allowed_dbs w)).
Proof.
  intros Hlack _ Hnone Hin. apply In_file_allowed_dbs in Hin.
  destruct Hin as (_ & _ & Hel). unfold eligible in Hel.
  apply andb_true_iff in Hel. destruct Hel as [Hacc _].
  apply has_upload_access_iff in Hacc. tauto.
Qed.

Lemma file_allowed_dbs_excludes_no_schema_access_witness :
  ~ full_access Sample.world Sample.hr
  /\ nonempty (get_schema_access_for_file_upload Sample.hr)
  /\ accessible_schemas Sample.world Sample.hr = Some []
  /\ allow_file_upload Sample.hr = true
  /\ supports_file_upload (db_engine_spec Sample.hr) = true
  /\ ~ In Sample.hr (fst (file_allowed_dbs Sample.world)).
Proof.
  split; [absurd_eq|]. split; [is_nonempty|]. split; [reflexivity|].
  split; [reflexivity|]. split; [reflexivity|].
  apply (file_allowed_dbs_excludes_no_schema_access Sample.world Sample.hr);
    [absurd_eq | is_nonempty | absurd_nonempty].
Defined.

(** ** Further properties of the filter *)

Lemma eligible_security_manager (w1 w2 : World) (d : Database) :
  security_manager w1 = security_manager w2 -> eligible w1 d = eligible w2 d.
Proof.
  intros E. unfold eligible, has_upload_access, accessible_schemas.
  rewrite E. reflexivity.
Qed.

Lemma file_allowed_dbs_rows (rows : list Database) (sm : SecurityManager) :
  fst (file_allowed_dbs (mkWorld rows sm))
  = List.filter (fun d => eligible (mkWorld [] sm) d)
      (List.filter allow_file_upload rows).
Proof.
  rewrite file_allowed_dbs_run. cbn [fst]. unfold file_enabled_dbs.
  cbn [query_filter_by_allow_file_upload fst session_rows].
  apply List.filter_ext. intros d. apply eligible_security_manager.
  reflexivity.
Qed.

Lemma filter_implies_sublist {A : Type} (p q : A -> bool) (l : list A) :
  (forall x, In x l -> p x = true -> q x = true) ->
  List.filter p l `sublist_of` List.filter q l.
Proof.
  induction l as [|x xs IH]; intros Himp; cbn; [constructor|].
  assert (Hxs : List.filter p xs `sublist_of` List.filter q xs).
  { apply IH. intros y Hy. apply Himp. right. exact Hy. }
  destruct (p x) eqn:Hp.
  - rewrite (Himp x (or_introl eq_refl) Hp). constructor. exact Hxs.
  - destruct (q x); [constructor|]; exact Hxs.
Qed.

Lemma map_sublist {A B : Type} (f : A -> B) (l k : list A) :
  l `sublist_of` k -> List.map f l `sublist_of` List.map f k.
Proof. induction 1; cbn; constructor; assumption. Qed.

Lemma has_upload_access_upload_access (w : World) (d : Database) :
  has_upload_access w d = true <-> upload_access w d.
Proof. apply has_upload_access_iff. Qed.

(** X1. Each connection is judged on its own: over a table that is the
    concatenation of two, [file_allowed_dbs] returns the concatenation of
    what it returns over each. Adding or removing a row of the table never
    changes whether another row is offered. *)
Theorem file_allowed_dbs_app
    (sm : SecurityManager) (rows1 rows2 : list Database) :
  fst (file_allowed_dbs (mkWorld (rows1 ++ rows2) sm))
  = fst (file_allowed_dbs (mkWorld rows1 sm))
    ++ fst (file_allowed_dbs (mkWorld rows2 sm)).
Proof.
  rewrite !file_allowed_dbs_rows, !List.filter_app. reflexivity.
Qed.

(** X2. Granting more never offers less: when two users see the same table
    and the second may upload to every connection the first may upload to,
    the list for the first is a subsequence of the list for the second. *)
Theorem file_allowed_dbs_monotone (w1 w2 : World) :
  session_rows w1 = session_rows w2 ->
  (forall d, In d (session_rows w1) ->
     upload_access w1 d -> upload_access w2 d) ->
  fst (file_allowed_dbs w1) `sublist_of` fst (file_allowed_dbs w2).
Proof.
  intros Hrows Hmore. rewrite !file_allowed_dbs_run. cbn [fst].
  unfold file_enabled_dbs. cbn [query_filter_by_allow_file_upload fst].
  rewrite <- Hrows. apply filter_implies_sublist. intros d Hin.
  apply List.filter_In in Hin. destruct Hin as [Hrow _].
  unfold eligible. rewrite !andb_true_iff, !has_upload_access_upload_access.
  intros [Hacc Heng]. split; [apply Hmore; assumption | exact Heng].
Qed.

Lemma file_allowed_dbs_monotone_witness :
  fst (file_allowed_dbs Sample.world) = [Sample.A; Sample.C]
  /\ fst (file_allowed_dbs Sample.admin_world)
     = [Sample.A; Sample.C; Sample.hr; Sample.ops; Sample.scratch]
  /\ fst (file_allowed_dbs Sample.world)
     `sublist_of` fst (file_allowed_dbs Sample.admin_world).
Proof.
  split; [reflexivity|]. split; [reflexivity|].
  apply (file_allowed_dbs_monotone Sample.world Sample.admin_world);
    [reflexivity|].
  intros d _ _. left. reflexivity.
Defined.

(** X3. The keys of the selection control are distinct: when the rows of
    the table have pairwise distinct [id]s, so have the databases that
    [file_allowed_dbs] returns, so [get_pk] identifies one of them. *)
Theorem file_allowed_dbs_distinct_pk (w : World) :
  NoDup (List.map get_pk (session_rows w)) ->
  NoDup (List.map get_pk (fst (file_allowed_dbs w))).
Proof.
  intros Hnodup. eapply sublist_NoDup; [exact Hnodup|].
  apply map_sublist. rewrite file_allowed_dbs_run. cbn [fst].
  transitivity (file_enabled_dbs w); apply filter_sublist.
Qed.

Lemma file_allowed_dbs_distinct_pk_witness :
  NoDup (List.map get_pk (session_rows Sample.world))
  /\ NoDup (List.map get_pk (fst (file_allowed_dbs Sample.world))).
Proof.
  assert (H : NoDup (List.map get_pk (session_rows Sample.world))).
  { apply (bool_decide_unpack _). vm_compute. exact I. }
  split; [exact H|].
  exact (file_allowed_dbs_distinct_pk Sample.world H).
Defined.

(** X4. Filtering again changes nothing: [file_allowed_dbs] over a table
    that holds just the databases it returned, for the same user, returns
    them all. *)
Theorem file_allowed_dbs_idempotent (w : World) :
  fst (file_allowed_dbs
         (mkWorld (fst (file_allowed_dbs w)) (security_manager w)))
  = fst (file_allowed_dbs w).
Proof.
  destruct w as [rows sm]. cbn [security_manager].
  rewrite !file_allowed_dbs_rows.
  set (p := fun d => eligible (mkWorld [] sm) d).
  set (l := List.filter p (List.filter allow_file_upload rows)).
  assert (Hall : forall d, In d l -> allow_file_upload d = true /\ p d = true).
  { intros d Hd. unfold l in Hd. rewrite !List.filter_In in Hd. tauto. }
  clearbody l. induction l as [|x xs IH]; [reflexivity|].
  destruct (Hall x (or_introl eq_refl)) as [Ha Hp].
  cbn [List.filter]. rewrite Ha. cbn [List.filter]. rewrite Hp.
  f_equal. apply IH. intros d Hd. apply Hall. right. exact Hd.
Qed.

(** X5. For a user with full access to every connection of the table, the
    list is exactly the rows whose [allow_file_upload] flag and whose
    engine's [supports_file_upload] flag are both true, in table order. *)
Theorem file_allowed_dbs_full_access_all (w : World) :
  (forall d, In d (session_rows w) -> full_access w d) ->
  fst (file_allowed_dbs w)
  = List.filter
      (fun d => allow_file_upload d
                && supports_file_upload (db_engine_spec d))
      (session_rows w).
Proof.
  intros Hfull. rewrite file_allowed_dbs_run. cbn [fst].
  unfold file_enabled_dbs. cbn [query_filter_by_allow_file_upload fst].
  induction (session_rows w) as [|x xs IH]; [reflexivity|].
  assert (Hx : has_upload_access w x = true).
  { apply has_upload_access_upload_access. left. apply Hfull. left.
    reflexivity. }
  assert (IH' := IH (fun d Hd => Hfull d (or_intror Hd))).
  cbn [List.filter]. destruct (allow_file_upload x); cbn [andb].
  - cbn [List.filter]. unfold eligible at 1.
    rewrite Hx, is_engine_allowed_to_file_upl_flag. cbn [andb].
    rewrite IH'. reflexivity.
  - exact IH'.
Qed.

Lemma file_allowed_dbs_full_access_all_witness :
  fst (file_allowed_dbs Sample.admin_world)
  = [Sample.A; Sample.C; Sample.hr; Sample.ops; Sample.scratch].
Proof.
  rewrite (file_allowed_dbs_full_access_all Sample.admin_world).
  - reflexivity.
  - intros d _. reflexivity.
Defined.

(** X6. For a user to whom the security manager grants upload on no
    connection of the table (no full access, and no accessible schema among
    the declared ones), the list is empty. *)
Theorem file_allowed_dbs_no_access_all (w : World) :
  (forall d, In d (session_rows w) -> ~ upload_access w d) ->
  fst (file_allowed_dbs w) = [].
Proof.
  intros Hnone. rewrite file_allowed_dbs_run. cbn [fst].
  unfold file_enabled_dbs. cbn [query_filter_by_allow_file_upload fst].
  induction (session_rows w) as [|x xs IH]; [reflexivity|].
  assert (Hx : has_upload_access w x = false).
  { destruct (has_upload_access w x) eqn:E; [|reflexivity].
    exfalso. apply (Hnone x (or_introl eq_refl)).
    apply has_upload_access_upload_access. exact E. }
  assert (IH' := IH (fun d Hd => Hnone d (or_intror Hd))).
  cbn [List.filter]. destruct (allow_file_upload x); [|exact IH'].
  cbn [List.filter]. unfold eligible at 1. rewrite Hx. cbn [andb].
  exact IH'.
Qed.

Lemma file_allowed_dbs_no_access_all_witness :
  fst (file_allowed_dbs Sample.nobody_world) = [].
Proof.
  apply (file_allowed_dbs_no_access_all Sample.nobody_world).
  intros d _ [Hfull | [_ (s & l & Hacc)]].
  - vm_compute in Hfull. discriminate Hfull.
  - vm_compute in Hacc. discriminate Hacc.
Defined.

(** ** The calls made *)

Lemma traced_at_least_one_schema_is_allowed_run (d : Database) (w : World) :
  Traced.at_least_one_schema_is_allowed d w
  = (has_upload_access w d, oracle_calls w d).
Proof.
  unfold Traced.at_least_one_schema_is_allowed, has_upload_access,
    oracle_calls, accessible_schemas, Traced.bind,
    Traced.can_access_database, Traced.get_schemas_accessible_by_user,
    Traced.ret.
  destruct (truthy (sm_can_access_database (security_manager w) d));
    [reflexivity|].
  destruct (truthy (get_schema_access_for_file_upload d)); [|reflexivity].
  destruct (truthy (sm_get_schemas_accessible_by_user _ _ _ _)); reflexivity.
Qed.

Lemma traced_comprehension_run {A : Type} (cond : A -> Traced.T bool)
    (p : A -> bool) (c : A -> list Call) (w : World) (l : list A) :
  (forall x, cond x w = (p x, c x)) ->
  Traced.comprehension cond l w = (List.filter p l, List.flat_map c l).
Proof.
  intros Hcond. induction l as [|x xs IH]; [reflexivity|].
  cbn [Traced.comprehension List.filter List.flat_map]. unfold Traced.bind.
  rewrite Hcond, IH. unfold Traced.ret. rewrite List.app_nil_r.
  destruct (p x); reflexivity.
Qed.

Lemma traced_file_allowed_dbs_run (w : World) :
  Traced.file_allowed_dbs w
  = (List.filter (eligible w) (file_enabled_dbs w),
     Query_filter_by_allow_file_upload
     :: List.flat_map (oracle_calls w) (file_enabled_dbs w)).
Proof.
  unfold Traced.file_allowed_dbs, Traced.bind, file_enabled_dbs.
  cbn [Traced.query_filter_by_allow_file_upload
         query_filter_by_allow_file_upload fst].
  rewrite (traced_comprehension_run _ (eligible w) (oracle_calls w)).
  - reflexivity.
  - intros d. unfold Traced.bind.
    rewrite traced_at_least_one_schema_is_allowed_run.
    unfold eligible, Traced.ret.
    destruct (has_upload_access w d); cbn [andb];
      rewrite List.app_nil_r; reflexivity.
Qed.

(** The recording changes no result. *)
Lemma traced_file_allowed_dbs_result (w : World) :
  fst (Traced.file_allowed_dbs w) = fst (file_allowed_dbs w).
Proof.
  rewrite traced_file_allowed_dbs_run, file_allowed_dbs_run. reflexivity.
Qed.

Lemma can_access_database_calls_oracle_calls (w : World) (l : list Database) :
  can_access_database_calls (List.flat_map (oracle_calls w) l) = l.
Proof.
  unfold can_access_database_calls.
  induction l as [|d ds IH]; [reflexivity|].
  cbn [List.flat_map]. rewrite List.flat_map_app, IH.
  unfold oracle_calls.
  destruct (truthy (sm_can_access_database (security_manager w) d));
    [reflexivity|].
  destruct (truthy (get_schema_access_for_file_upload d)); reflexivity.
Qed.

Lemma truthy_access_false (w : World) (d : Database) :
  truthy (sm_can_access_database (security_manager w) d) = false
  <-> ~ full_access w d.
Proof.
  unfold full_access. rewrite <- truthy_access_true.
  destruct (truthy (sm_can_access_database (security_manager w) d));
    split; intros E; try reflexivity; try discriminate E.
  - exfalso. apply E. reflexivity.
  - intros E'. discriminate E'.
Qed.

Lemma In_get_schemas_oracle_calls (w : World) (x d : Database)
    (schemas : option (list string)) (hierarchical : bool) :
  In (Get_schemas_accessible_by_user d schemas hierarchical)
     (oracle_calls w x)
  <-> x = d
      /\ ~ full_access w d
      /\ nonempty (get_schema_access_for_file_upload d)
      /\ schemas = get_schema_access_for_file_upload d
      /\ hierarchical = false.
Proof.
  unfold oracle_calls. cbn [In]. split.
  - intros [E | Hin]; [discriminate E|].
    destruct (truthy (sm_can_access_database (security_manager w) x))
      eqn:Hcan; [destruct Hin|].
    destruct (truthy (get_schema_access_for_file_upload x)) eqn:Hs;
      [|destruct Hin].
    destruct Hin as [E | []]. injection E as -> <- <-.
    apply truthy_access_false in Hcan. apply truthy_schemas_true in Hs.
    tauto.
  - intros (-> & Hlack & Hdecl & -> & ->). right.
    apply truthy_access_false in Hlack. apply truthy_schemas_true in Hdecl.
    rewrite Hlack, Hdecl. left. reflexivity.
Qed.

(** X7. One permission check per candidate: [file_allowed_dbs] calls
    [security_manager.can_access_database] exactly once for each row the
    query for [allow_file_upload=True] returned, in their order, and for no
    other database; it does so also for a row whose engine does not support
    upload, the engine being tested second. *)
Theorem file_allowed_dbs_can_access_database_calls (w : World) :
  can_access_database_calls (snd (Traced.file_allowed_dbs w))
  = List.filter allow_file_upload (session_rows w).
Proof.
  rewrite traced_file_allowed_dbs_run. cbn [snd].
  change (can_access_database_calls
            (List.flat_map (oracle_calls w) (file_enabled_dbs w))
          = file_enabled_dbs w).
  apply can_access_database_calls_oracle_calls.
Qed.

(** X8. The schema lookup is made only when it decides:
    [file_allowed_dbs] calls
    [security_manager.get_schemas_accessible_by_user(d, schemas, h)] exactly
    for the rows [d] the query returned to which the user lacks full access
    and which declare a non-empty list of upload schemas, with that list as
    [schemas] and [h = False]. *)
Theorem file_allowed_dbs_get_schemas_calls (w : World) (d : Database)
    (schemas : option (list string)) (hierarchical : bool) :
  In (Get_schemas_accessible_by_user d schemas hierarchical)
     (snd (Traced.file_allowed_dbs w))
  <-> In d (session_rows w)
      /\ allow_file_upload d = true
      /\ ~ full_access w d
      /\ nonempty (get_schema_access_for_file_upload d)
      /\ schemas = get_schema_access_for_file_upload d
      /\ hierarchical = false.
Proof.
  rewrite traced_file_allowed_dbs_run. cbn [snd In].
  rewrite List.in_flat_map. unfold file_enabled_dbs.
  cbn [query_filter_by_allow_file_upload fst]. split.
  - intros [E | (x & Hx & Hcall)]; [discriminate E|].
    apply In_get_schemas_oracle_calls in Hcall.
    destruct Hcall as (-> & Hrest). apply List.filter_In in Hx. tauto.
  - intros (Hrow & Hallow & Hrest). right. exists d. split.
    + apply List.filter_In. tauto.
    + apply In_get_schemas_oracle_calls. tauto.
Qed.

Lemma oracle_calls_length (w : World) (d : Database) :
  (length (oracle_calls w d) <= 2)%nat.
Proof.
  unfold oracle_calls.
  destruct (truthy (sm_can_access_database (security_manager w) d));
    [cbn; auto|].
  destruct (truthy (get_schema_access_for_file_upload d)); cbn; auto.
Qed.

Lemma flat_map_length_le {A B : Type} (f : A -> list B) (n : nat)
    (l : list A) :
  (forall x, (length (f x) <= n)%nat) ->
  (length (List.flat_map f l) <= n * length l)%nat.
Proof.
  intros Hf. induction l as [|x xs IH]; cbn [List.flat_map length].
  - rewrite Nat.mul_0_r. constructor.
  - rewrite List.length_app, Nat.mul_succ_r.
    rewrite (Nat.add_comm (n * length xs)).
    apply Nat.add_le_mono; [apply Hf | exact IH].
Qed.

Lemma query_not_in_oracle_calls (w : World) (l : list Database) :
  ~ In Query_filter_by_allow_file_upload (List.flat_map (oracle_calls w) l).
Proof.
  rewrite List.in_flat_map. intros (d & _ & Hin). unfold oracle_calls in Hin.
  destruct Hin as [E | Hin]; [discriminate E|].
  destruct (truthy (sm_can_access_database (security_manager w) d));
    [destruct Hin|].
  destruct (truthy (get_schema_access_for_file_upload d));
    [destruct Hin as [E | []]; discriminate E | destruct Hin].
Qed.

(** X9. [file_allowed_dbs] queries the table once, before anything else,
    and then makes at most two calls to the security manager for each row
    the query returned. *)
Theorem file_allowed_dbs_calls_bound (w : World) :
  exists calls,
    snd (Traced.file_allowed_dbs w)
    = Query_filter_by_allow_file_upload :: calls
    /\ ~ In Query_filter_by_allow_file_upload calls
    /\ (length calls
        <= 2 * length (List.filter allow_file_upload (session_rows w)))%nat.
Proof.
  rewrite traced_file_allowed_dbs_run. cbn [snd].
  exists (List.flat_map (oracle_calls w) (file_enabled_dbs w)).
  split; [reflexivity|]. split; [apply query_not_in_oracle_calls|].
  apply flat_map_length_le. intros d. apply oracle_calls_length.
Qed.

(** ** The table-name validator *)

(** [[^\.]+] followed by [$], on a string that is not the whole subject. *)
Lemma plus_no_dot_dollar (s : string) :
  Re.match_here [Re.Plus (Re.None_of ["."%char]); Re.Dollar] false s = true
  <-> s <> EmptyString /\ ~ In "."%char (list_ascii_of_string s).
Proof.
  induction s as [|a s IH].
  - cbn. split; [intros E; discriminate E | intros [E _]; contradiction].
  - cbn [Re.match_here] in IH |- *. cbn [list_ascii_of_string In].
    rewrite andb_true_iff, orb_true_iff, IH.
    cbn [Re.member existsb]. rewrite orb_false_r, negb_true_iff.
    rewrite andb_true_r, Ascii.eqb_neq.
    split.
    + intros [Ha [[_ Hs] | Hend]].
      * split; [intros E; discriminate E|]. intros [E | Hin]; auto.
      * split; [intros E; discriminate E|]. intros [E | Hin]; [auto|].
        destruct s as [|b [|c s]]; cbn in Hend, Hin;
          [destruct Hin | | discriminate Hend].
        apply Ascii.eqb_eq in Hend. subst b.
        destruct Hin as [E | []]. discriminate E.
    + intros [_ Hno]. split; [intros E; apply Hno; left; auto|].
      destruct s as [|b s]; [right; reflexivity|]. left.
      split; [intros E; discriminate E|]. intros Hin. apply Hno.
      right. exact Hin.
Qed.

(** X10. The table-name validator of the three forms passes exactly on a
    non-empty name without a ["."]: a name that carries a schema, such as
    ["sales.orders"], an empty name and an absent one are all rejected, and
    any other character, a newline included, is let through. *)
Theorem Regexp_table_name (data : option string) :
  Regexp table_name_regex data = true
  <-> exists s, data = Some s
                /\ s <> EmptyString
                /\ ~ In "."%char (list_ascii_of_string s).
Proof.
  unfold Regexp, Re.matches, table_name_regex.
  cbn [Re.match_here andb].
  change ((fix plus (s : string) : bool :=
             match s with
             | EmptyString => false
             | String a s' =>
                 Re.member (Re.None_of ["."%char]) a
                 && (plus s' || Re.match_here [Re.Dollar] false s')
             end) ?s)
    with (Re.match_here [Re.Plus (Re.None_of ["."%char]); Re.Dollar] false s).
  destruct data as [s|].
  - rewrite plus_no_dot_dollar. split.
    + intros H. exists s. split; [reflexivity | exact H].
    + intros (s' & E & H). injection E as ->. exact H.
  - split; [intros E; discriminate E|].
    intros (s' & E & _). discriminate E.
Qed.

(** ** Collaborators that may write and raise *)

Lemma effects_at_least_one_schema_is_allowed_run {State : Type}
    (c : Effects.Collaborators State) (d : Database) (s : State) :
  Effects.read_only_collaborators c ->
  Effects.at_least_one_schema_is_allowed c d s
  = (Effects.allowed_outcome c s d, s).
Proof.
  intros (_ & Hcan & Hget).
  unfold Effects.at_least_one_schema_is_allowed, Effects.allowed_outcome,
    Effects.bind.
  pose proof (Hcan d s) as Es.
  destruct (Effects.can_access_database c d s) as [o s'].
  cbn in Es. subst s'. cbn [fst].
  destruct o as [access|e]; [|reflexivity].
  destruct (truthy access); [reflexivity|]. cbv zeta.
  destruct (truthy (get_schema_access_for_file_upload d)); [|reflexivity].
  pose proof (Hget d (get_schema_access_for_file_upload d) false s) as Es.
  destruct (Effects.get_schemas_accessible_by_user c d _ false s) as [o s'].
  cbn in Es. subst s'. cbn [fst].
  destruct o as [accessible|e]; [|reflexivity].
  unfold Effects.ret. destruct (truthy accessible); reflexivity.
Qed.

Lemma effects_comprehension_run {State A : Type}
    (cond : A -> Effects.Eff State bool) (p : A -> Effects.Outcome bool)
    (s : State) (l : list A) :
  (forall x, cond x s = (p x, s)) ->
  Effects.comprehension cond l s = (Effects.filter_outcome p l, s).
Proof.
  intros Hcond. induction l as [|x xs IH]; [reflexivity|].
  cbn [Effects.comprehension Effects.filter_outcome]. unfold Effects.bind.
  rewrite Hcond. destruct (p x) as [keep|e]; [|reflexivity].
  rewrite IH. destruct (Effects.filter_outcome p xs); reflexivity.
Qed.

Lemma effects_file_allowed_dbs_run {State : Type}
    (c : Effects.Collaborators State) (s : State) :
  Effects.read_only_collaborators c ->
  Effects.file_allowed_dbs c s = (Effects.result_outcome c s, s).
Proof.
  intros Hc. pose proof Hc as (Hquery & _).
  unfold Effects.file_allowed_dbs, Effects.result_outcome, Effects.bind.
  pose proof (Hquery s) as Es.
  destruct (Effects.query_filter_by_allow_file_upload c s) as [o s'].
  cbn in Es. subst s'. cbn [fst].
  destruct o as [l|e]; [|reflexivity].
  apply effects_comprehension_run. intros d. unfold Effects.bind.
  rewrite effects_at_least_one_schema_is_allowed_run by exact Hc.
  unfold Effects.kept_outcome.
  destruct (Effects.allowed_outcome c s d) as [[|]|e]; reflexivity.
Qed.





(** The functions of the first model are these, over collaborators that
    read the world and always answer. *)
Lemma effects_of_world (w : World) :
  Effects.file_allowed_dbs of_world w
  = (Effects.Returned (fst (file_allowed_dbs w)), w).
Proof.
  rewrite effects_file_allowed_dbs_run.
  2:{ repeat split; intros; intro; reflexivity. }
  rewrite file_allowed_dbs_run. cbn [fst]. f_equal.
  unfold Effects.result_outcome. cbn.
  change (List.filter allow_file_upload (session_rows w))
    with (file_enabled_dbs w).
  induction (file_enabled_dbs w) as [|d ds IH]; [reflexivity|].
  cbn [Effects.filter_outcome List.filter]. rewrite IH.
  unfold Effects.kept_outcome, Effects.allowed_outcome, eligible,
    has_upload_access, accessible_schemas. cbn.
  destruct (truthy (sm_can_access_database (security_manager w) d));
    [reflexivity|].
  destruct (truthy (get_schema_access_for_file_upload d)); reflexivity.
Qed.

(** Writes of a collaborator are not undone: with collaborators that count
    their calls, the run leaves the count of the calls it made. *)
Example file_allowed_dbs_counting :
  Effects.file_allowed_dbs Sample.counting 0%nat
  = (Effects.Returned [Sample.A; Sample.C], 11%nat).
Proof. reflexivity. Qed.







